(** * Freeplane application-control server: dispatch layer

    A shallow embedding of [server.py]: the bridge client
    ([FreeplaneClient]), the tool catalog ([list_tools]) and the
    dispatcher ([call_tool]), with the Python operations they rely on
    written out on JSON-compatible values. *)

From Stdlib Require Import String ZArith List Bool Lia PrimFloat.
Import ListNotations.
Open Scope string_scope.
Set Warnings "-register-all".

(** ** Python values

    Every value the dispatcher touches is JSON-compatible: tool arguments
    are decoded from a JSON-RPC request and bridge replies come out of
    [response.json()].  Dictionaries keep insertion order, as Python's do. *)

Inductive json : Type :=
| JNull
| JBool (b : bool)
| JInt (z : Z)
| JFloat (f : float)
| JStr (s : string)
| JList (l : list json)
| JDict (d : list (string * json)).

Definition py_dict := list (string * json).

Module Py.

(** [type(v).__name__] *)
Definition type_name (v : json) : string :=
  match v with
  | JNull => "NoneType"
  | JBool _ => "bool"
  | JInt _ => "int"
  | JFloat _ => "float"
  | JStr _ => "str"
  | JList _ => "list"
  | JDict _ => "dict"
  end.

(** [bool(v)] *)
Definition truthy (v : json) : bool :=
  match v with
  | JNull => false
  | JBool b => b
  | JInt z => negb (Z.eqb z 0)
  | JFloat f => negb (PrimFloat.eqb f 0%float)
  | JStr s => negb (String.eqb s "")
  | JList l => match l with [] => false | _ :: _ => true end
  | JDict d => match d with [] => false | _ :: _ => true end
  end.

(** [a or b] *)
Definition or (a b : json) : json := if truthy a then a else b.

(** [key in d] and [d.get(key)] on a dictionary. *)
Fixpoint dict_get {V : Type} (key : string) (d : list (string * V)) : option V :=
  match d with
  | [] => None
  | (k, v) :: rest => if String.eqb k key then Some v else dict_get key rest
  end.

Definition dict_contains {V : Type} (key : string) (d : list (string * V)) : bool :=
  match dict_get key d with Some _ => true | None => false end.

(** [needle in hay] on two strings: substring test. *)
Fixpoint str_contains (needle hay : string) : bool :=
  String.prefix needle hay
  || match hay with
     | EmptyString => false
     | String _ rest => str_contains needle rest
     end.

(** [key == v] for a string [key]. *)
Definition str_eq (key : string) (v : json) : bool :=
  match v with
  | JStr s => String.eqb key s
  | _ => false
  end.

End Py.

(** ** Exceptions

    The faults the dispatch layer can meet, all subclasses of Python's
    [Exception].  [requests] raises subclasses of [RequestException] only
    (a refused connection, a timeout, a body that is not JSON); the others
    come from Python operations applied to a value of the wrong type.
    Message texts are CPython's (3.11 to 3.13 wording). *)

Inductive request_failure : Type :=
| ConnectionError
| Timeout
| JSONDecodeError
| OtherRequestFailure.

Inductive exn : Type :=
| RequestException (kind : request_failure) (description : string)
| TypeError (message : string)
| AttributeError (message : string)
| KeyError (key : string).

(** [str(e)] *)
Definition str (e : exn) : string :=
  match e with
  | RequestException _ description => description
  | TypeError message => message
  | AttributeError message => message
  | KeyError key => "'" ++ key ++ "'"
  end.

(** [isinstance(e, requests.RequestException)] *)
Definition is_RequestException (e : exn) : bool :=
  match e with
  | RequestException _ _ => true
  | TypeError _ | AttributeError _ | KeyError _ => false
  end.

(** [isinstance(e, Exception)] *)
Definition is_Exception (e : exn) : bool :=
  match e with
  | RequestException _ _ | TypeError _ | AttributeError _ | KeyError _ => true
  end.

Inductive outcome (A : Type) : Type :=
| Returns (a : A)
| Raises (e : exn).

Arguments Returns {A} a.
Arguments Raises {A} e.

Module PyOps.

(** [key in container] *)
Definition contains (key : string) (container : json) : outcome bool :=
  match container with
  | JDict d => Returns (Py.dict_contains key d)
  | JStr s => Returns (Py.str_contains key s)
  | JList l => Returns (existsb (Py.str_eq key) l)
  | JNull | JBool _ | JInt _ | JFloat _ =>
      Raises (TypeError ("argument of type '" ++ Py.type_name container
                         ++ "' is not iterable"))
  end.

(** [obj.get(key)] *)
Definition get (obj : json) (key : string) : outcome json :=
  match obj with
  | JDict d =>
      Returns (match Py.dict_get key d with Some v => v | None => JNull end)
  | _ =>
      Raises (AttributeError ("'" ++ Py.type_name obj
                              ++ "' object has no attribute 'get'"))
  end.

(** [obj[key]] for a string [key] *)
Definition getitem (obj : json) (key : string) : outcome json :=
  match obj with
  | JDict d =>
      match Py.dict_get key d with
      | Some v => Returns v
      | None => Raises (KeyError key)
      end
  | JStr _ => Raises (TypeError "string indices must be integers, not 'str'")
  | JList _ => Raises (TypeError "list indices must be integers or slices, not str")
  | JNull | JBool _ | JInt _ | JFloat _ =>
      Raises (TypeError ("'" ++ Py.type_name obj ++ "' object is not subscriptable"))
  end.

End PyOps.

(** ** The outside world: HTTP requests to the bridge

    The bridge is an external process.  It is modelled as a function from
    the requests seen so far and the current request to what [requests]
    makes of it: a response, whose body may or may not parse as JSON, or a
    transport failure.  A computation threads the log of requests issued. *)

Inductive http_request : Type :=
| GET (url : string) (timeout : Z)
| POST (url : string) (json_body : json) (timeout : Z).

Inductive Response : Type :=
| Body (value : json)
| Malformed (description : string).

Inductive http_result : Type :=
| Responds (response : Response)
| Fails (kind : request_failure) (description : string).

Definition Bridge := list http_request -> http_request -> http_result.

Definition IO (A : Type) : Type :=
  Bridge -> list http_request -> outcome A * list http_request.

Definition ret {A} (a : A) : IO A := fun _ log => (Returns a, log).

Definition raise {A} (e : exn) : IO A := fun _ log => (Raises e, log).

Definition bind {A B} (c : IO A) (k : A -> IO B) : IO B :=
  fun bridge log =>
    match c bridge log with
    | (Returns a, log') => k a bridge log'
    | (Raises e, log') => (Raises e, log')
    end.

Definition lift {A} (o : outcome A) : IO A := fun _ log => (o, log).

(** [try: body / except <class> as e: handler] *)
Definition try_except {A} (body : IO A) (catches : exn -> bool)
    (handler : exn -> IO A) : IO A :=
  fun bridge log =>
    match body bridge log with
    | (Returns a, log') => (Returns a, log')
    | (Raises e, log') =>
        if catches e then handler e bridge log' else (Raises e, log')
    end.

Declare Scope io_scope.
Delimit Scope io_scope with io.
Notation "x <- c ;; k" := (bind c (fun x => k))
  (at level 61, c at next level, right associativity) : io_scope.
Open Scope io_scope.

Module requests.

Definition send (request : http_request) : IO Response :=
  fun bridge log =>
    match bridge log request with
    | Responds response => (Returns response, (log ++ [request])%list)
    | Fails kind description =>
        (Raises (RequestException kind description), (log ++ [request])%list)
    end.

(** [requests.get(url, timeout=...)] *)
Definition get (url : string) (timeout : Z) : IO Response :=
  send (GET url timeout).

(** [requests.post(url, json=..., timeout=...)] *)
Definition post (url : string) (json_body : json) (timeout : Z) : IO Response :=
  send (POST url json_body timeout).

(** [response.json()] *)
Definition json (response : Response) : outcome json :=
  match response with
  | Body value => Returns value
  | Malformed description =>
      Raises (RequestException JSONDecodeError description)
  end.

End requests.

(** ** Bridge client *)

(** [class FreeplaneClient]: [base_url] is [BRIDGE_URL] for the
    module-level instance; [timeout] is set to 10 by [__init__]. *)
Record FreeplaneClient : Type := {
  base_url : string;
  timeout : Z
}.

Module FreeplaneClient.

Definition __init__ (base_url : string) : FreeplaneClient :=
  {| base_url := base_url; timeout := 10 |}.

(** Check if Freeplane bridge is running *)
Definition check_connection (self : FreeplaneClient) : IO json :=
  try_except
    (response <- requests.get (base_url self ++ "/status") (timeout self) ;;
     lift (requests.json response))
    is_RequestException
    (fun e =>
       ret (JDict
              [("error", JStr "Cannot connect to Freeplane bridge");
               ("details", JStr (str e));
               ("hint", JStr "Make sure Freeplane is running and the FreeplaneHttpBridge.groovy script is executed")])).

(** Execute a command on Freeplane *)
Definition execute (self : FreeplaneClient) (command : string)
    (params : json) : IO json :=
  try_except
    (response <- requests.post (base_url self ++ "/execute")
                   (JDict [("command", JStr command);
                           ("params", Py.or params (JDict []))])
                   (timeout self) ;;
     lift (requests.json response))
    is_RequestException
    (fun e => ret (JDict [("error", JStr (str e))])).

End FreeplaneClient.

(** ** Protocol types *)

Record Tool : Type := {
  name : string;
  description : string;
  inputSchema : json
}.

(** The text [json.dumps(obj, indent=...)] produces, kept symbolically as
    the document it serialises. *)
Inductive json_text : Type :=
| json_dumps (obj : json) (indent : Z).

Record TextContent : Type := {
  type : string;
  text : json_text
}.

(** ** Tool catalog *)

(** List available tools *)
Definition list_tools : list Tool :=
  [
    {| name := "check_connection";
       description := "Check if Freeplane is running and the bridge is active";
       inputSchema :=
         JDict [("type", JStr "object"); ("properties", JDict [])] |};
    {| name := "get_map_info";
       description := "Get information about the currently open mind map";
       inputSchema :=
         JDict [("type", JStr "object"); ("properties", JDict [])] |};
    {| name := "get_selected_node";
       description := "Get information about the currently selected node";
       inputSchema :=
         JDict [("type", JStr "object"); ("properties", JDict [])] |};
    {| name := "select_node";
       description := "Select a specific node by its ID";
       inputSchema :=
         JDict
           [("type", JStr "object");
            ("properties", JDict
             [("node_id", JDict
               [("type", JStr "string");
                ("description", JStr "ID of the node to select")])]);
            ("required", JList [JStr "node_id"])] |};
    {| name := "navigate_to_parent";
       description := "Navigate to the parent of the currently selected node";
       inputSchema :=
         JDict [("type", JStr "object"); ("properties", JDict [])] |};
    {| name := "navigate_to_child";
       description := "Navigate to a child of the currently selected node";
       inputSchema :=
         JDict
           [("type", JStr "object");
            ("properties", JDict
             [("index", JDict
               [("type", JStr "integer");
                ("description", JStr "Index of the child (0-based)");
                ("default", JInt 0)])])] |};
    {| name := "create_child_node";
       description := "Create a new child node under the currently selected node";
       inputSchema :=
         JDict
           [("type", JStr "object");
            ("properties", JDict
             [("text", JDict
               [("type", JStr "string");
                ("description", JStr "Text for the new node")]);
              ("position", JDict
               [("type", JStr "string");
                ("description", JStr "Position: 'left' or 'right'");
                ("enum", JList [JStr "left"; JStr "right"])])])] |};
    {| name := "create_sibling_node";
       description := "Create a new sibling node next to the currently selected node";
       inputSchema :=
         JDict
           [("type", JStr "object");
            ("properties", JDict
             [("text", JDict
               [("type", JStr "string");
                ("description", JStr "Text for the new node")]);
              ("before", JDict
               [("type", JStr "boolean");
                ("description", JStr "Insert before (true) or after (false) current node")])])] |};
    {| name := "set_node_text";
       description := "Change the text of a node";
       inputSchema :=
         JDict
           [("type", JStr "object");
            ("properties", JDict
             [("node_id", JDict
               [("type", JStr "string");
                ("description", JStr "ID of the node (omit for current)")]);
              ("text", JDict
               [("type", JStr "string");
                ("description", JStr "New text for the node")])]);
            ("required", JList [JStr "text"])] |};
    {| name := "delete_node";
       description := "Delete a node and all its children";
       inputSchema :=
         JDict
           [("type", JStr "object");
            ("properties", JDict
             [("node_id", JDict
               [("type", JStr "string");
                ("description", JStr "ID of the node to delete")])]);
            ("required", JList [JStr "node_id"])] |};
    {| name := "set_node_color";
       description := "Set the text color of a node";
       inputSchema :=
         JDict
           [("type", JStr "object");
            ("properties", JDict
             [("node_id", JDict
               [("type", JStr "string");
                ("description", JStr "ID of the node (omit for current)")]);
              ("color", JDict
               [("type", JStr "string");
                ("description", JStr "Color as hex (#FF0000) or name (red)")])]);
            ("required", JList [JStr "color"])] |};
    {| name := "set_background_color";
       description := "Set the background color of a node";
       inputSchema :=
         JDict
           [("type", JStr "object");
            ("properties", JDict
             [("node_id", JDict
               [("type", JStr "string");
                ("description", JStr "ID of the node (omit for current)")]);
              ("color", JDict
               [("type", JStr "string");
                ("description", JStr "Color as hex (#FF0000) or name (red)")])]);
            ("required", JList [JStr "color"])] |};
    {| name := "set_node_style";
       description := "Apply a predefined style to a node";
       inputSchema :=
         JDict
           [("type", JStr "object");
            ("properties", JDict
             [("node_id", JDict
               [("type", JStr "string");
                ("description", JStr "ID of the node (omit for current)")]);
              ("style", JDict
               [("type", JStr "string");
                ("description", JStr "Style name (e.g., 'default', 'important')")])]);
            ("required", JList [JStr "style"])] |};
    {| name := "set_font_formatting";
       description := "Set font formatting (bold, italic, size) for a node";
       inputSchema :=
         JDict
           [("type", JStr "object");
            ("properties", JDict
             [("node_id", JDict
               [("type", JStr "string");
                ("description", JStr "ID of the node (omit for current)")]);
              ("bold", JDict
               [("type", JStr "boolean");
                ("description", JStr "Make text bold")]);
              ("italic", JDict
               [("type", JStr "boolean");
                ("description", JStr "Make text italic")]);
              ("size", JDict
               [("type", JStr "integer");
                ("description", JStr "Font size in points")])])] |};
    {| name := "add_icon";
       description := "Add an icon to a node";
       inputSchema :=
         JDict
           [("type", JStr "object");
            ("properties", JDict
             [("node_id", JDict
               [("type", JStr "string");
                ("description", JStr "ID of the node (omit for current)")]);
              ("icon", JDict
               [("type", JStr "string");
                ("description", JStr "Icon name (use list_icons to see available)")])]);
            ("required", JList [JStr "icon"])] |};
    {| name := "remove_icon";
       description := "Remove an icon from a node";
       inputSchema :=
         JDict
           [("type", JStr "object");
            ("properties", JDict
             [("node_id", JDict
               [("type", JStr "string");
                ("description", JStr "ID of the node (omit for current)")]);
              ("icon", JDict
               [("type", JStr "string");
                ("description", JStr "Icon name to remove")])]);
            ("required", JList [JStr "icon"])] |};
    {| name := "list_icons";
       description := "List all available icons that can be added to nodes";
       inputSchema :=
         JDict [("type", JStr "object"); ("properties", JDict [])] |};
    {| name := "add_connector";
       description := "Add a visual connector (arrow) between two nodes";
       inputSchema :=
         JDict
           [("type", JStr "object");
            ("properties", JDict
             [("source_id", JDict
               [("type", JStr "string");
                ("description", JStr "ID of the source node")]);
              ("target_id", JDict
               [("type", JStr "string");
                ("description", JStr "ID of the target node")]);
              ("label", JDict
               [("type", JStr "string");
                ("description", JStr "Optional label for the connector")])]);
            ("required", JList [JStr "source_id"; JStr "target_id"])] |};
    {| name := "remove_connector";
       description := "Remove a connector between two nodes";
       inputSchema :=
         JDict
           [("type", JStr "object");
            ("properties", JDict
             [("source_id", JDict
               [("type", JStr "string");
                ("description", JStr "ID of the source node")]);
              ("target_id", JDict
               [("type", JStr "string");
                ("description", JStr "ID of the target node")])]);
            ("required", JList [JStr "source_id"; JStr "target_id"])] |};
    {| name := "set_node_attribute";
       description := "Set a custom attribute (key-value pair) on a node";
       inputSchema :=
         JDict
           [("type", JStr "object");
            ("properties", JDict
             [("node_id", JDict
               [("type", JStr "string");
                ("description", JStr "ID of the node (omit for current)")]);
              ("name", JDict
               [("type", JStr "string");
                ("description", JStr "Attribute name")]);
              ("value", JDict
               [("type", JStr "string");
                ("description", JStr "Attribute value")])]);
            ("required", JList [JStr "name"; JStr "value"])] |};
    {| name := "get_node_attributes";
       description := "Get all attributes of a node";
       inputSchema :=
         JDict
           [("type", JStr "object");
            ("properties", JDict
             [("node_id", JDict
               [("type", JStr "string");
                ("description", JStr "ID of the node (omit for current)")])])] |};
    {| name := "set_node_note";
       description := "Set or update the note text for a node";
       inputSchema :=
         JDict
           [("type", JStr "object");
            ("properties", JDict
             [("node_id", JDict
               [("type", JStr "string");
                ("description", JStr "ID of the node (omit for current)")]);
              ("text", JDict
               [("type", JStr "string");
                ("description", JStr "Note text (supports HTML)")])]);
            ("required", JList [JStr "text"])] |};
    {| name := "get_node_note";
       description := "Get the note text of a node";
       inputSchema :=
         JDict
           [("type", JStr "object");
            ("properties", JDict
             [("node_id", JDict
               [("type", JStr "string");
                ("description", JStr "ID of the node (omit for current)")])])] |};
    {| name := "fold_node";
       description := "Fold (collapse) a node to hide its children";
       inputSchema :=
         JDict
           [("type", JStr "object");
            ("properties", JDict
             [("node_id", JDict
               [("type", JStr "string");
                ("description", JStr "ID of the node to fold")])]);
            ("required", JList [JStr "node_id"])] |};
    {| name := "unfold_node";
       description := "Unfold (expand) a node to show its children";
       inputSchema :=
         JDict
           [("type", JStr "object");
            ("properties", JDict
             [("node_id", JDict
               [("type", JStr "string");
                ("description", JStr "ID of the node to unfold")])]);
            ("required", JList [JStr "node_id"])] |};
    {| name := "center_on_node";
       description := "Center the map view on a specific node";
       inputSchema :=
         JDict
           [("type", JStr "object");
            ("properties", JDict
             [("node_id", JDict
               [("type", JStr "string");
                ("description", JStr "ID of the node to center on")])]);
            ("required", JList [JStr "node_id"])] |};
    {| name := "find_nodes";
       description := "Search for nodes containing specific text";
       inputSchema :=
         JDict
           [("type", JStr "object");
            ("properties", JDict
             [("text", JDict
               [("type", JStr "string");
                ("description", JStr "Text to search for")]);
              ("case_sensitive", JDict
               [("type", JStr "boolean");
                ("description", JStr "Case-sensitive search");
                ("default", JBool false)])]);
            ("required", JList [JStr "text"])] |}
  ].

(** ** Dispatcher *)

(** Map tool names to commands *)
Definition command_map : list (string * string) :=
  [("get_map_info", "get_map_info");
   ("get_selected_node", "get_selected_node");
   ("select_node", "select_node");
   ("navigate_to_parent", "navigate_to_parent");
   ("navigate_to_child", "navigate_to_child");
   ("create_child_node", "create_child");
   ("create_sibling_node", "create_sibling");
   ("set_node_text", "set_node_text");
   ("delete_node", "delete_node");
   ("set_node_color", "set_node_color");
   ("set_background_color", "set_background_color");
   ("set_node_style", "set_node_style");
   ("add_icon", "add_icon");
   ("remove_icon", "remove_icon");
   ("list_icons", "list_icons");
   ("add_connector", "add_connector");
   ("remove_connector", "remove_connector");
   ("set_node_attribute", "set_attribute");
   ("get_node_attributes", "get_attributes");
   ("set_node_note", "set_note");
   ("get_node_note", "get_note");
   ("fold_node", "fold_node");
   ("unfold_node", "unfold_node");
   ("center_on_node", "center_on_node");
   ("find_nodes", "find_nodes")].

(** [all(r.get("success") for r in results if "success" in r)]: the
    generator is consumed left to right and [all] stops at the first
    falsy value. *)
Fixpoint all_success (results : list json) : outcome bool :=
  match results with
  | [] => Returns true
  | r :: rest =>
      match PyOps.contains "success" r with
      | Raises e => Raises e
      | Returns false => all_success rest
      | Returns true =>
          match PyOps.get r "success" with
          | Raises e => Raises e
          | Returns v => if Py.truthy v then all_success rest else Returns false
          end
      end
  end.

(** One [if "<key>" in arguments:] block of the font-formatting branch:
    when the key is present, one [execute] call whose result is appended
    to [results]. *)
Definition font_step (freeplane : FreeplaneClient) (arguments : json)
    (key command : string) (results : list json) : IO (list json) :=
  present <- lift (PyOps.contains key arguments) ;;
  if (present : bool) then
    node_id <- lift (PyOps.get arguments "node_id") ;;
    value <- lift (PyOps.getitem arguments key) ;;
    res <- FreeplaneClient.execute freeplane command
             (JDict [("node_id", node_id); (key, value)]) ;;
    ret (results ++ [res])%list
  else
    ret results.

(** The body of [call_tool]'s [try] block. *)
Definition call_tool_body (freeplane : FreeplaneClient) (name : string)
    (arguments : json) : IO (list TextContent) :=
  (* Special case: check connection doesn't need bridge call *)
  if String.eqb name "check_connection" then
    result <- FreeplaneClient.check_connection freeplane ;;
    ret [{| type := "text"; text := json_dumps result 2 |}]
  (* Handle font formatting specially *)
  else if String.eqb name "set_font_formatting" then
    results <- font_step freeplane arguments "bold" "set_font_bold" [] ;;
    results <- font_step freeplane arguments "italic" "set_font_italic" results ;;
    results <- font_step freeplane arguments "size" "set_font_size" results ;;
    success <- lift (all_success results) ;;
    ret [{| type := "text";
            text := json_dumps (JDict [("results", JList results);
                                       ("success", JBool success)]) 2 |}]
  else
    (* Execute the command *)
    match Py.dict_get name command_map with
    | Some (String _ _ as command) =>
        result <- FreeplaneClient.execute freeplane command arguments ;;
        ret [{| type := "text"; text := json_dumps result 2 |}]
    | Some EmptyString | None =>
        ret [{| type := "text";
                text := json_dumps
                          (JDict [("error", JStr ("Unknown tool: " ++ name))]) 2 |}]
    end.

(** Handle tool calls *)
Definition call_tool (freeplane : FreeplaneClient) (name : string)
    (arguments : json) : IO (list TextContent) :=
  try_except
    (call_tool_body freeplane name arguments)
    is_Exception
    (fun e =>
       ret [{| type := "text";
               text := json_dumps (JDict [("error", JStr (str e));
                                          ("tool", JStr name)]) 2 |}]).

(** * Specification vocabulary

    The notions the properties below are stated with.  None of them is
    used by the program above. *)

(** The single content block every call answers with. *)
Definition text_block (doc : json) : TextContent :=
  {| type := "text"; text := json_dumps doc 2 |}.

(** The error object of the unknown-tool branch. *)
Definition unknown_tool (name : string) : json :=
  JDict [("error", JStr ("Unknown tool: " ++ name))].

(** The error object built by the outermost handler. *)
Definition fault_object (e : exn) (name : string) : json :=
  JDict [("error", JStr (str e)); ("tool", JStr name)].

(** The aggregated object of the font-formatting tool. *)
Definition composite (results : list json) (success : bool) : json :=
  JDict [("results", JList results); ("success", JBool success)].

(** The body of the POST that carries a bridge command. *)
Definition execute_body (command : string) (params : json) : json :=
  JDict [("command", JStr command); ("params", params)].

Definition execute_request (self : FreeplaneClient) (command : string)
    (params : json) : http_request :=
  POST (base_url self ++ "/execute") (execute_body command params) (timeout self).

Definition status_request (self : FreeplaneClient) : http_request :=
  GET (base_url self ++ "/status") (timeout self).

(** A transport-level failure and its description: the request fails, or
    the response body is not JSON. *)
Definition transport_failure (r : http_result) : option string :=
  match r with
  | Responds (Body _) => None
  | Responds (Malformed description) => Some description
  | Fails _ description => Some description
  end.

Definition is_object (v : json) : bool :=
  match v with
  | JDict _ => true
  | _ => false
  end.

(** A sub-result that contains a ["success"] key, and the truth value
    found under it. *)
Definition has_success (r : json) : bool :=
  match r with
  | JDict d => Py.dict_contains "success" d
  | _ => false
  end.

Definition success_flag (r : json) : bool :=
  match r with
  | JDict d =>
      match Py.dict_get "success" d with
      | Some v => Py.truthy v
      | None => false
      end
  | _ => false
  end.

Definition and_of_success (results : list json) : bool :=
  forallb success_flag (filter has_success results).

(** The attributes of the composite tool in their fixed order, each with
    its bridge command. *)
Definition font_attributes : list (string * string) :=
  [("bold", "set_font_bold");
   ("italic", "set_font_italic");
   ("size", "set_font_size")].

(** The node identifier a sub-call carries: the caller's, or null. *)
Definition node_id_of (arguments : py_dict) : json :=
  match Py.dict_get "node_id" arguments with
  | Some v => v
  | None => JNull
  end.

(** The sub-calls the specification asks for: one per attribute key
    present in the arguments, as (command, params) pairs. *)
Definition font_subcalls (arguments : py_dict) : list (string * json) :=
  flat_map
    (fun '(key, command) =>
       match Py.dict_get key arguments with
       | Some v => [(command, JDict [("node_id", node_id_of arguments); (key, v)])]
       | None => []
       end)
    font_attributes.

(** Issuing a list of bridge commands one after the other and collecting
    what [execute] returns for each, in order. *)
Fixpoint collect (self : FreeplaneClient) (calls : list (string * json))
    : IO (list json) :=
  match calls with
  | [] => ret []
  | (command, params) :: rest =>
      res <- FreeplaneClient.execute self command params ;;
      results <- collect self rest ;;
      ret (res :: results)
  end.

(** What [execute] makes of the bridge's answer. *)
Definition execute_result (r : http_result) : json :=
  match r with
  | Responds (Body value) => value
  | Responds (Malformed description) => JDict [("error", JStr description)]
  | Fails _ description => JDict [("error", JStr description)]
  end.

(** How a name is resolved without reaching the unknown-tool branch. *)
Definition resolves (tool_name : string) : Prop :=
  tool_name = "check_connection"
  \/ tool_name = "set_font_formatting"
  \/ exists command,
       Py.dict_get tool_name command_map = Some command /\ command <> "".

(** The request [execute] sends for a (command, params) pair. *)
Definition subcall_request (self : FreeplaneClient) (call : string * json)
    : http_request :=
  execute_request self (fst call) (Py.or (snd call) (JDict [])).

(** The values a list of bridge commands yields, each answer being read
    off the bridge after the requests that came before it. *)
Fixpoint replies (self : FreeplaneClient) (bridge : Bridge)
    (log : list http_request) (calls : list (string * json)) : list json :=
  match calls with
  | [] => []
  | call :: rest =>
      execute_result (bridge log (subcall_request self call))
      :: replies self bridge (log ++ [subcall_request self call])%list rest
  end.

(** ** Sample clients and bridges *)

Definition local_client : FreeplaneClient :=
  FreeplaneClient.__init__ "http://localhost:8765".

Definition bridge_ok : Bridge :=
  fun _ _ => Responds (Body (JDict [("success", JBool true)])).

Definition bridge_down : Bridge :=
  fun _ _ => Fails ConnectionError "Connection refused".

Definition bridge_null : Bridge :=
  fun _ _ => Responds (Body JNull).

(** Answers the first request with a success object and every later one
    with [null]. *)
Definition bridge_then_null : Bridge :=
  fun log _ =>
    match log with
    | [] => Responds (Body (JDict [("success", JBool true)]))
    | _ :: _ => Responds (Body JNull)
    end.

(** A bridge whose answers are an object with a true flag, an object
    without flag, and an object with a false flag, in that order. *)
Definition bridge_mixed : Bridge :=
  fun log _ =>
    match log with
    | [] => Responds (Body (JDict [("success", JBool true)]))
    | [_] => Responds (Body (JDict [("note", JStr "ignored")]))
    | _ => Responds (Body (JDict [("success", JBool false); ("error", JStr "bad size")]))
    end.

(** ** Vocabulary for the catalog and the request log *)

(** What [check_connection] makes of the bridge's answer. *)
Definition status_result (r : http_result) : json :=
  match transport_failure r with
  | Some description =>
      JDict
        [("error", JStr "Cannot connect to Freeplane bridge");
         ("details", JStr description);
         ("hint", JStr "Make sure Freeplane is running and the FreeplaneHttpBridge.groovy script is executed")]
  | None =>
      match r with
      | Responds (Body value) => value
      | _ => JNull
      end
  end.

(** A request this client can send: the status read, or a command. *)
Definition bridge_request (self : FreeplaneClient) (request : http_request)
    : Prop :=
  request = status_request self
  \/ exists command params, request = execute_request self command params.

(** The command a request carries, if it is a command request. *)
Definition request_command (request : http_request) : option string :=
  match request with
  | POST _ (JDict (("command", JStr command) :: _)) _ => Some command
  | _ => None
  end.

(** A request that carries one of the three font commands. *)
Definition is_font_request (request : http_request) : bool :=
  match request_command request with
  | Some command => existsb (fun entry => String.eqb command (snd entry)) font_attributes
  | None => false
  end.

(** A sub-result that reports failure: it has a success key whose value
    is falsy. *)
Definition reports_failure (r : json) : bool :=
  has_success r && negb (success_flag r).

(** No string occurs twice. *)
Fixpoint distinct (names : list string) : bool :=
  match names with
  | [] => true
  | n :: rest => negb (existsb (String.eqb n) rest) && distinct rest
  end.

(** One entry of a schema's properties: an object with a primitive type
    and a description. *)
Definition parameter_well_formed (parameter : json) : bool :=
  match parameter with
  | JDict d =>
      match Py.dict_get "type" d with
      | Some (JStr t) =>
          (String.eqb t "string" || String.eqb t "integer" || String.eqb t "boolean")
          && Py.dict_contains "description" d
      | _ => false
      end
  | _ => false
  end.

(** An input schema: an object schema whose properties are well formed
    and whose required names are all declared properties. *)
Definition schema_well_formed (schema : json) : bool :=
  match schema with
  | JDict d =>
      match Py.dict_get "type" d, Py.dict_get "properties" d with
      | Some (JStr "object"), Some (JDict properties) =>
          forallb (fun entry => parameter_well_formed (snd entry)) properties
          && distinct (map fst properties)
          && match Py.dict_get "required" d with
             | None => true
             | Some (JList required) =>
                 forallb
                   (fun r =>
                      match r with
                      | JStr parameter => Py.dict_contains parameter properties
                      | _ => false
                      end)
                   required
             | Some _ => false
             end
      | _, _ => false
      end
  | _ => false
  end.

(** Answers the first request with a failure report and every later one
    with [null]. *)
Definition bridge_failure_then_null : Bridge :=
  fun log _ =>
    match log with
    | [] => Responds (Body (JDict [("success", JBool false)]))
    | _ :: _ => Responds (Body JNull)
    end.

(** Answers every request with a body that is not JSON. *)
Definition bridge_garbled : Bridge :=
  fun _ _ => Responds (Malformed "Expecting value: line 1 column 1 (char 0)").

(** * Properties *)

(** ** Bridge transport *)

Lemma execute_run self command params bridge log :
  let request := execute_request self command (Py.or params (JDict [])) in
  FreeplaneClient.execute self command params bridge log
  = (Returns (execute_result (bridge log request)), (log ++ [request])%list).
Proof.
  cbv zeta.
  unfold FreeplaneClient.execute, try_except, bind, requests.post, requests.send, lift.
  fold (execute_body command (Py.or params (JDict []))).
  fold (execute_request self command (Py.or params (JDict []))).
  destruct (bridge log _) as [[value | description] | kind description];
    reflexivity.
Qed.

Lemma check_connection_returns self bridge log :
  exists result,
    FreeplaneClient.check_connection self bridge log
    = (Returns result, (log ++ [status_request self])%list).
Proof.
  unfold FreeplaneClient.check_connection, try_except, bind, requests.get,
    requests.send, lift.
  fold (status_request self).
  destruct (bridge log _) as [[value | description] | kind description];
    eexists; reflexivity.
Qed.

(** C8. On a transport-level failure (the request fails, or the response
    body is not JSON) [check_connection] returns an object with the fields
    error, details (the failure description) and hint, and [execute]
    returns an object whose only field is error, holding the description;
    both calls always return a value and never raise. *)
Theorem transport_failure_is_a_result self command params bridge log :
  (forall description,
      transport_failure (bridge log (status_request self)) = Some description ->
      FreeplaneClient.check_connection self bridge log
      = (Returns
           (JDict
              [("error", JStr "Cannot connect to Freeplane bridge");
               ("details", JStr description);
               ("hint", JStr "Make sure Freeplane is running and the FreeplaneHttpBridge.groovy script is executed")]),
         (log ++ [status_request self])%list))
  /\ (forall description,
         transport_failure
           (bridge log (execute_request self command (Py.or params (JDict []))))
         = Some description ->
         FreeplaneClient.execute self command params bridge log
         = (Returns (JDict [("error", JStr description)]),
            (log ++ [execute_request self command (Py.or params (JDict []))])%list))
  /\ (exists result log',
         FreeplaneClient.check_connection self bridge log = (Returns result, log'))
  /\ (exists result log',
         FreeplaneClient.execute self command params bridge log
         = (Returns result, log')).
Proof.
  repeat split.
  - intros description.
    unfold FreeplaneClient.check_connection, try_except, bind, requests.get,
      requests.send, lift.
    fold (status_request self).
    destruct (bridge log _) as [[value | d] | kind d]; simpl;
      intros H; inversion H; subst; reflexivity.
  - intros description H.
    rewrite execute_run; cbv zeta.
    destruct (bridge log _) as [[value | d] | kind d]; simpl in *;
      inversion H; subst; reflexivity.
  - destruct (check_connection_returns self bridge log) as [result H].
    eauto.
  - rewrite execute_run. eauto.
Qed.

Lemma transport_failure_is_a_result_witness :
  FreeplaneClient.check_connection local_client bridge_down []
  = (Returns
       (JDict
          [("error", JStr "Cannot connect to Freeplane bridge");
           ("details", JStr "Connection refused");
           ("hint", JStr "Make sure Freeplane is running and the FreeplaneHttpBridge.groovy script is executed")]),
     [status_request local_client])
  /\ FreeplaneClient.execute local_client "get_map_info" (JDict []) bridge_down []
     = (Returns (JDict [("error", JStr "Connection refused")]),
        [execute_request local_client "get_map_info" (JDict [])]).
Proof.
  destruct (transport_failure_is_a_result local_client "get_map_info" (JDict [])
              bridge_down []) as (Hstatus & Hexecute & _).
  split.
  - apply (Hstatus "Connection refused"). reflexivity.
  - apply (Hexecute "Connection refused"). reflexivity.
Defined.

(** ** Dispatcher: shape of a call *)

Lemma dict_get_In {V : Type} (key : string) (d : list (string * V)) (v : V) :
  Py.dict_get key d = Some v -> In (key, v) d.
Proof.
  induction d as [| [k w] rest IH]; simpl; [discriminate |].
  destruct (String.eqb_spec k key) as [-> | _].
  - intros H; inversion H; auto.
  - auto.
Qed.

Lemma command_map_entry name command :
  Py.dict_get name command_map = Some command ->
  name <> "check_connection" /\ name <> "set_font_formatting"
  /\ exists a rest, command = String a rest.
Proof.
  intros H. apply dict_get_In in H.
  unfold command_map in H. simpl in H.
  repeat (destruct H as [H | H];
          [inversion H; subst; repeat split; try discriminate; eauto |]).
  contradiction.
Qed.

Lemma log_grows {A : Type} (log : list A) (x : A) : (log ++ [x])%list <> log.
Proof.
  intros H. apply (f_equal (@length A)) in H.
  rewrite length_app in H. simpl in H. lia.
Qed.

Ltac returns_block := left; do 2 eexists; reflexivity.
Ltac raises_fault := right; do 2 eexists; reflexivity.

(** The [try] block either returns exactly one text block or raises. *)
Lemma call_tool_body_shape freeplane name arguments bridge log :
  (exists doc log',
      call_tool_body freeplane name arguments bridge log
      = (Returns [text_block doc], log'))
  \/ (exists e log',
         call_tool_body freeplane name arguments bridge log = (Raises e, log')).
Proof.
  unfold call_tool_body.
  destruct (String.eqb name "check_connection").
  - destruct (check_connection_returns freeplane bridge log) as [result H].
    unfold bind. rewrite H. returns_block.
  - destruct (String.eqb name "set_font_formatting").
    + unfold bind.
      destruct (font_step freeplane arguments "bold" _ _ bridge log)
        as [[r1 | e1] l1]; [| raises_fault].
      destruct (font_step freeplane arguments "italic" _ r1 bridge l1)
        as [[r2 | e2] l2]; [| raises_fault].
      destruct (font_step freeplane arguments "size" _ r2 bridge l2)
        as [[r3 | e3] l3]; [| raises_fault].
      unfold lift.
      destruct (all_success r3) as [success | e]; [| raises_fault].
      returns_block.
    + destruct (Py.dict_get name command_map) as [[| a rest] |].
      * returns_block.
      * unfold bind. rewrite execute_run. returns_block.
      * returns_block.
Qed.

(** C1. Whatever the tool name and the arguments (a mapping or any other
    value), one call returns exactly one text block holding one JSON
    document and never raises: when the [try] block returns, its block is
    the answer; when it raises [e], the answer is the error object with
    [str(e)] and the tool name. *)
Theorem call_tool_always_one_document freeplane name arguments bridge log :
  (exists doc log',
      call_tool freeplane name arguments bridge log
      = (Returns [text_block doc], log'))
  /\ match call_tool_body freeplane name arguments bridge log with
     | (Returns blocks, log') =>
         call_tool freeplane name arguments bridge log = (Returns blocks, log')
     | (Raises e, log') =>
         call_tool freeplane name arguments bridge log
         = (Returns [text_block (fault_object e name)], log')
     end.
Proof.
  unfold call_tool, try_except.
  destruct (call_tool_body_shape freeplane name arguments bridge log)
    as [(doc & log' & H) | (e & log' & H)]; rewrite H.
  - split; [exists doc, log' |]; reflexivity.
  - assert (Hcatch : is_Exception e = true) by (destruct e; reflexivity).
    rewrite Hcatch.
    split; [exists (fault_object e name), log' |]; reflexivity.
Qed.

(** A fault in argument handling, converted: [None] as arguments. *)
Example call_tool_fault_converted :
  call_tool local_client "set_font_formatting" JNull bridge_ok []
  = (Returns
       [text_block
          (fault_object (TypeError "argument of type 'NoneType' is not iterable")
             "set_font_formatting")],
     []).
Proof. reflexivity. Qed.

(** ** Dispatcher: ordinary tools *)

Lemma mapped_tool_run freeplane name command arguments bridge log :
  Py.dict_get name command_map = Some command ->
  let request := execute_request freeplane command (Py.or arguments (JDict [])) in
  call_tool freeplane name arguments bridge log
  = (Returns [text_block (execute_result (bridge log request))],
     (log ++ [request])%list).
Proof.
  intros H. cbv zeta.
  destruct (command_map_entry name command H) as (Hcheck & Hfont & a & rest & ->).
  unfold call_tool, try_except, call_tool_body.
  apply String.eqb_neq in Hcheck, Hfont.
  rewrite Hcheck, Hfont, H.
  unfold bind. rewrite execute_run. reflexivity.
Qed.

(** C6. A name that is neither special nor a key of [command_map] gets
    the error object naming it; the request log is unchanged (no call to
    the bridge) and nothing is raised. *)
Theorem unknown_tool_error freeplane name arguments bridge log :
  name <> "check_connection" ->
  name <> "set_font_formatting" ->
  Py.dict_get name command_map = None ->
  call_tool freeplane name arguments bridge log
  = (Returns [text_block (JDict [("error", JStr ("Unknown tool: " ++ name))])],
     log).
Proof.
  intros Hcheck Hfont Hmap.
  unfold call_tool, try_except, call_tool_body.
  apply String.eqb_neq in Hcheck, Hfont.
  rewrite Hcheck, Hfont, Hmap. reflexivity.
Qed.

Lemma unknown_tool_error_witness :
  call_tool local_client "bogus_tool" (JDict []) bridge_ok []
  = (Returns [text_block (JDict [("error", JStr "Unknown tool: bogus_tool")])],
     []).
Proof.
  apply (unknown_tool_error local_client "bogus_tool" (JDict []) bridge_ok []).
  - discriminate.
  - discriminate.
  - reflexivity.
Defined.

(** C7. For a tool of [command_map] called with a mapping, the single
    request sent to the bridge is a POST to /execute whose body is the
    mapped command with, as params, the caller's mapping itself. *)
Theorem arguments_forwarded_unchanged freeplane name command
    (arguments : py_dict) bridge log :
  Py.dict_get name command_map = Some command ->
  exists result,
    call_tool freeplane name (JDict arguments) bridge log
    = (Returns [text_block result],
       (log ++ [POST (base_url freeplane ++ "/execute")
                  (JDict [("command", JStr command);
                          ("params", JDict arguments)])
                  (timeout freeplane)])%list).
Proof.
  intros H.
  rewrite (mapped_tool_run freeplane name command (JDict arguments) bridge log H).
  cbv zeta.
  assert (Hor : Py.or (JDict arguments) (JDict []) = JDict arguments)
    by (destruct arguments; reflexivity).
  rewrite Hor. unfold execute_request, execute_body. eauto.
Qed.

Lemma arguments_forwarded_unchanged_witness :
  exists result,
    call_tool local_client "create_child_node"
      (JDict [("text", JStr "Idea"); ("position", JStr "left")]) bridge_ok []
    = (Returns [text_block result],
       [POST "http://localhost:8765/execute"
          (JDict [("command", JStr "create_child");
                  ("params",
                   JDict [("text", JStr "Idea"); ("position", JStr "left")])])
          10]).
Proof.
  apply (arguments_forwarded_unchanged local_client "create_child_node"
           "create_child" [("text", JStr "Idea"); ("position", JStr "left")]
           bridge_ok []).
  reflexivity.
Defined.

(** ** Composite font formatting *)

Lemma collect_run self calls : forall bridge log,
  collect self calls bridge log
  = (Returns (replies self bridge log calls),
     (log ++ map (subcall_request self) calls)%list).
Proof.
  induction calls as [| [command params] rest IH]; intros bridge log.
  - simpl. unfold ret. now rewrite app_nil_r.
  - simpl. unfold bind at 1. rewrite execute_run. cbv zeta.
    unfold bind at 1. rewrite IH. unfold ret, subcall_request; simpl.
    now rewrite <- app_assoc.
Qed.

Lemma replies_length self bridge calls : forall log,
  length (replies self bridge log calls) = length calls.
Proof.
  induction calls as [| call rest IH]; intros log; simpl; [| rewrite IH];
    reflexivity.
Qed.

(** One block of the font branch, on a mapping. *)
Lemma font_step_run freeplane (m : py_dict) key command results bridge log :
  font_step freeplane (JDict m) key command results bridge log
  = match Py.dict_get key m with
    | Some v =>
        let call := (command, JDict [("node_id", node_id_of m); (key, v)]) in
        ((Returns (results ++ [execute_result (bridge log (subcall_request freeplane call))])%list),
         (log ++ [subcall_request freeplane call])%list)
    | None => (Returns results, log)
    end.
Proof.
  unfold font_step, bind, lift, PyOps.contains, PyOps.get, PyOps.getitem,
    Py.dict_contains, node_id_of.
  destruct (Py.dict_get key m) as [v |]; [| reflexivity].
  rewrite execute_run. reflexivity.
Qed.

(** The three blocks together issue the sub-calls of [font_subcalls], in
    that order, and hand their results to the aggregation. *)
Lemma font_branch_run freeplane (m : py_dict) bridge log :
  let results := replies freeplane bridge log (font_subcalls m) in
  let log' := (log ++ map (subcall_request freeplane) (font_subcalls m))%list in
  call_tool_body freeplane "set_font_formatting" (JDict m) bridge log
  = match all_success results with
    | Returns success => (Returns [text_block (composite results success)], log')
    | Raises e => (Raises e, log')
    end.
Proof.
  cbv zeta. unfold call_tool_body.
  change ("set_font_formatting" =? "check_connection") with false.
  change ("set_font_formatting" =? "set_font_formatting") with true.
  cbv iota.
  unfold bind at 1. rewrite font_step_run.
  unfold font_subcalls, font_attributes. simpl flat_map.
  destruct (Py.dict_get "bold" m) as [bold |]; cbv zeta;
    (unfold bind at 1; rewrite font_step_run);
    (destruct (Py.dict_get "italic" m) as [italic |]; cbv zeta;
     (unfold bind at 1; rewrite font_step_run);
     (destruct (Py.dict_get "size" m) as [size |]; cbv zeta;
      unfold bind, lift; simpl app; simpl replies; simpl map;
      rewrite <- ?app_assoc; simpl app; rewrite ?app_nil_r;
      destruct (all_success _); reflexivity)).
Qed.

(** The whole call on a mapping: a fault of the aggregation is turned
    into the error object by the outermost handler. *)
Lemma font_call_run freeplane (m : py_dict) bridge log :
  let results := replies freeplane bridge log (font_subcalls m) in
  let log' := (log ++ map (subcall_request freeplane) (font_subcalls m))%list in
  call_tool freeplane "set_font_formatting" (JDict m) bridge log
  = match all_success results with
    | Returns success => (Returns [text_block (composite results success)], log')
    | Raises e =>
        (Returns [text_block (fault_object e "set_font_formatting")], log')
    end.
Proof.
  cbv zeta. unfold call_tool, try_except. rewrite font_branch_run. cbv zeta.
  destruct (all_success _) as [success | e]; [reflexivity |].
  destruct e; reflexivity.
Qed.

(** On JSON objects the aggregation never faults and computes the AND of
    the flags that are present. *)
Lemma all_success_objects results :
  forallb is_object results = true ->
  all_success results = Returns (and_of_success results).
Proof.
  unfold and_of_success.
  induction results as [| r rest IH]; simpl; [reflexivity |].
  intros H. apply andb_true_iff in H. destruct H as [Hr Hrest].
  destruct r; try discriminate. simpl.
  unfold Py.dict_contains.
  destruct (Py.dict_get "success" d) as [v |] eqn:Hflag; simpl; [| auto].
  rewrite Hflag.
  destruct (Py.truthy v); simpl; auto.
Qed.

Lemma font_subcalls_requests freeplane (m : py_dict) :
  map (subcall_request freeplane) (font_subcalls m)
  = map (fun call => execute_request freeplane (fst call) (snd call))
      (font_subcalls m).
Proof.
  unfold font_subcalls, font_attributes. simpl flat_map.
  destruct (Py.dict_get "bold" m), (Py.dict_get "italic" m),
    (Py.dict_get "size" m); reflexivity.
Qed.

Lemma font_subcalls_shape (m : py_dict) :
  Forall
    (fun call =>
       exists key v,
         In (key, fst call) font_attributes
         /\ Py.dict_get key m = Some v
         /\ snd call = JDict [("node_id", node_id_of m); (key, v)])
    (font_subcalls m).
Proof.
  unfold font_subcalls, font_attributes. simpl flat_map.
  destruct (Py.dict_get "bold" m) as [bold |] eqn:Hbold,
    (Py.dict_get "italic" m) as [italic |] eqn:Hitalic,
    (Py.dict_get "size" m) as [size |] eqn:Hsize;
    simpl; repeat constructor;
    solve [ exists "bold", bold; simpl; auto
          | exists "italic", italic; simpl; auto
          | exists "size", size; simpl; auto ].
Qed.

(** C3, for sub-results that are JSON objects.  When every sub-call
    result is a JSON object, the
    composite answer lists the sub-results verbatim under results and its
    success flag is the AND of the flags of exactly those sub-results
    that contain a success key. *)
Theorem font_success_is_and_of_present_flags freeplane (m : py_dict) bridge log
    results log' :
  collect freeplane (font_subcalls m) bridge log = (Returns results, log') ->
  forallb is_object results = true ->
  call_tool freeplane "set_font_formatting" (JDict m) bridge log
  = (Returns
       [text_block
          (JDict [("results", JList results);
                  ("success",
                   JBool (forallb success_flag (filter has_success results)))])],
     log').
Proof.
  intros Hcollect Hobjects.
  rewrite collect_run in Hcollect. inversion Hcollect; subst; clear Hcollect.
  rewrite font_call_run. cbv zeta.
  rewrite (all_success_objects _ Hobjects). reflexivity.
Qed.

Lemma font_success_is_and_of_present_flags_witness :
  call_tool local_client "set_font_formatting"
    (JDict [("bold", JBool true); ("italic", JBool false); ("size", JInt 0)])
    bridge_mixed []
  = (Returns
       [text_block
          (JDict
             [("results",
               JList [JDict [("success", JBool true)];
                      JDict [("note", JStr "ignored")];
                      JDict [("success", JBool false); ("error", JStr "bad size")]]);
              ("success", JBool false)])],
     map (subcall_request local_client)
       [("set_font_bold", JDict [("node_id", JNull); ("bold", JBool true)]);
        ("set_font_italic", JDict [("node_id", JNull); ("italic", JBool false)]);
        ("set_font_size", JDict [("node_id", JNull); ("size", JInt 0)])]).
Proof.
  apply (font_success_is_and_of_present_flags local_client
           [("bold", JBool true); ("italic", JBool false); ("size", JInt 0)]
           bridge_mixed []).
  - reflexivity.
  - reflexivity.
Defined.

(** C3 does not extend to a sub-call result that is not an object:
    with sub-results [{"success": true}, null] the call answers with the
    error object of the outermost handler, not with a composite object. *)
Lemma font_success_counterexample :
  collect local_client
    (font_subcalls [("bold", JBool true); ("italic", JBool true)])
    bridge_then_null []
  = (Returns [JDict [("success", JBool true)]; JNull],
     map (subcall_request local_client)
       [("set_font_bold", JDict [("node_id", JNull); ("bold", JBool true)]);
        ("set_font_italic", JDict [("node_id", JNull); ("italic", JBool true)])])
  /\ call_tool local_client "set_font_formatting"
       (JDict [("bold", JBool true); ("italic", JBool true)]) bridge_then_null []
     = (Returns
          [text_block
             (JDict [("error", JStr "argument of type 'NoneType' is not iterable");
                     ("tool", JStr "set_font_formatting")])],
        map (subcall_request local_client)
          [("set_font_bold", JDict [("node_id", JNull); ("bold", JBool true)]);
           ("set_font_italic", JDict [("node_id", JNull); ("italic", JBool true)])])
  /\ (forall results success log',
         call_tool local_client "set_font_formatting"
           (JDict [("bold", JBool true); ("italic", JBool true)])
           bridge_then_null []
         <> (Returns [text_block (composite results success)], log')).
Proof.
  split; [reflexivity |]. split; [reflexivity |].
  intros results success log'. vm_compute. discriminate.
Qed.

Lemma font_call_log freeplane (m : py_dict) bridge log :
  snd (call_tool freeplane "set_font_formatting" (JDict m) bridge log)
  = (log ++ map (subcall_request freeplane) (font_subcalls m))%list.
Proof.
  rewrite font_call_run. cbv zeta.
  destruct (all_success _); reflexivity.
Qed.

(** C4, the results sequence being returned for sub-results that are
    JSON objects.  On a mapping, the requests issued are exactly one
    [execute] call per key among bold, italic, size present in the
    arguments, in that order, each with params made of the node
    identifier and that single attribute; the sub-results are collected
    in the same order and, when they are JSON objects, returned as the
    results sequence.  With only [{bold: v}] one request is issued. *)
Theorem font_subcalls_per_present_key freeplane (m : py_dict) bridge log :
  let calls := font_subcalls m in
  let issued :=
    map (fun call => execute_request freeplane (fst call) (snd call)) calls in
  snd (call_tool freeplane "set_font_formatting" (JDict m) bridge log)
  = (log ++ issued)%list
  /\ (exists results,
         collect freeplane calls bridge log
         = (Returns results, (log ++ issued)%list)
         /\ length results = length calls
         /\ (forallb is_object results = true ->
             exists success,
               call_tool freeplane "set_font_formatting" (JDict m) bridge log
               = (Returns [text_block (composite results success)],
                  (log ++ issued)%list)))
  /\ (forall v,
         m = [("bold", v)] ->
         let request :=
           POST (base_url freeplane ++ "/execute")
             (JDict [("command", JStr "set_font_bold");
                     ("params", JDict [("node_id", JNull); ("bold", v)])])
             (timeout freeplane) in
         issued = [request]
         /\ (is_object (execute_result (bridge log request)) = true ->
             exists success,
               call_tool freeplane "set_font_formatting" (JDict m) bridge log
               = (Returns
                    [text_block
                       (composite [execute_result (bridge log request)] success)],
                  (log ++ [request])%list))).
Proof.
  cbv zeta. rewrite <- font_subcalls_requests.
  split; [apply font_call_log |]. split.
  - exists (replies freeplane bridge log (font_subcalls m)).
    split; [apply collect_run |]. split; [apply replies_length |].
    intros Hobjects. exists (and_of_success (replies freeplane bridge log (font_subcalls m))).
    rewrite font_call_run. cbv zeta.
    now rewrite (all_success_objects _ Hobjects).
  - intros v ->. split; [reflexivity |].
    intros Hobject. rewrite font_call_run. cbv zeta.
    change (replies freeplane bridge log (font_subcalls [("bold", v)]))
      with [execute_result
              (bridge log
                 (execute_request freeplane "set_font_bold"
                    (JDict [("node_id", JNull); ("bold", v)])))].
    rewrite all_success_objects
      by (simpl forallb; rewrite andb_true_r; exact Hobject).
    eexists. reflexivity.
Qed.

(** [{bold: true}] against a bridge that answers with a success object:
    one request, one result. *)
Example font_bold_only :
  call_tool local_client "set_font_formatting" (JDict [("bold", JBool true)])
    bridge_ok []
  = (Returns
       [text_block
          (JDict [("results", JList [JDict [("success", JBool true)]]);
                  ("success", JBool true)])],
     [POST "http://localhost:8765/execute"
        (JDict [("command", JStr "set_font_bold");
                ("params", JDict [("node_id", JNull); ("bold", JBool true)])])
        10]).
Proof. reflexivity. Qed.

(** C4 does not extend to a bridge that answers with a value that is not
    an object: [{bold: true}] issues its one sub-call, but the
    answer is the error object and carries no results sequence. *)
Lemma font_subcalls_counterexample :
  call_tool local_client "set_font_formatting" (JDict [("bold", JBool true)])
    bridge_null []
  = (Returns
       [text_block
          (JDict [("error", JStr "argument of type 'NoneType' is not iterable");
                  ("tool", JStr "set_font_formatting")])],
     [POST "http://localhost:8765/execute"
        (JDict [("command", JStr "set_font_bold");
                ("params", JDict [("node_id", JNull); ("bold", JBool true)])])
        10])
  /\ (forall results success log',
         call_tool local_client "set_font_formatting"
           (JDict [("bold", JBool true)]) bridge_null []
         <> (Returns [text_block (composite results success)], log')).
Proof.
  split; [reflexivity |].
  intros results success log'. vm_compute. discriminate.
Qed.

Lemma dict_contains_false {V : Type} key (d : list (string * V)) :
  Py.dict_contains key d = false -> Py.dict_get key d = None.
Proof.
  unfold Py.dict_contains. destruct (Py.dict_get key d); [discriminate | reflexivity].
Qed.

(** C5. On a mapping with none of the keys bold, italic, size (the empty
    mapping included) no request is issued and the answer is
    [{"results": [], "success": true}]. *)
Theorem font_no_key_is_vacuous_success freeplane (m : py_dict) bridge log :
  Py.dict_contains "bold" m = false ->
  Py.dict_contains "italic" m = false ->
  Py.dict_contains "size" m = false ->
  call_tool freeplane "set_font_formatting" (JDict m) bridge log
  = (Returns
       [text_block (JDict [("results", JList []); ("success", JBool true)])],
     log).
Proof.
  intros Hbold Hitalic Hsize.
  apply dict_contains_false in Hbold, Hitalic, Hsize.
  rewrite font_call_run. cbv zeta.
  unfold font_subcalls, font_attributes. simpl flat_map.
  rewrite Hbold, Hitalic, Hsize. simpl. now rewrite app_nil_r.
Qed.

Lemma font_no_key_is_vacuous_success_witness :
  call_tool local_client "set_font_formatting" (JDict []) bridge_ok []
  = (Returns
       [text_block (JDict [("results", JList []); ("success", JBool true)])],
     [])
  /\ call_tool local_client "set_font_formatting"
       (JDict [("colour", JStr "red"); ("node_id", JStr "ID_7")]) bridge_ok []
     = (Returns
          [text_block (JDict [("results", JList []); ("success", JBool true)])],
        []).
Proof.
  split.
  - apply (font_no_key_is_vacuous_success local_client [] bridge_ok []);
      reflexivity.
  - apply (font_no_key_is_vacuous_success local_client
             [("colour", JStr "red"); ("node_id", JStr "ID_7")] bridge_ok []);
      reflexivity.
Defined.

Lemma error_objects_have_no_flag results :
  Forall (fun r => exists description, r = JDict [("error", JStr description)])
    results ->
  forallb is_object results = true /\ filter has_success results = [].
Proof.
  induction 1 as [| r rest [description ->] _ [IHobjects IHfilter]]; simpl; auto.
Qed.

(** C9. When every sub-result is a transport-failure object (only an
    error key), the composite answer still has success = true and lists
    those error objects under results. *)
Theorem font_transport_failures_report_success freeplane (m : py_dict) bridge
    log results log' :
  collect freeplane (font_subcalls m) bridge log = (Returns results, log') ->
  Forall (fun r => exists description, r = JDict [("error", JStr description)])
    results ->
  call_tool freeplane "set_font_formatting" (JDict m) bridge log
  = (Returns
       [text_block (JDict [("results", JList results); ("success", JBool true)])],
     log').
Proof.
  intros Hcollect Herrors.
  destruct (error_objects_have_no_flag results Herrors) as [Hobjects Hnone].
  rewrite collect_run in Hcollect. inversion Hcollect; subst; clear Hcollect.
  rewrite font_call_run. cbv zeta.
  rewrite (all_success_objects _ Hobjects). unfold and_of_success.
  rewrite Hnone. reflexivity.
Qed.

Lemma font_transport_failures_report_success_witness :
  call_tool local_client "set_font_formatting"
    (JDict [("bold", JBool true); ("size", JInt 14)]) bridge_down []
  = (Returns
       [text_block
          (JDict [("results",
                   JList [JDict [("error", JStr "Connection refused")];
                          JDict [("error", JStr "Connection refused")]]);
                  ("success", JBool true)])],
     map (subcall_request local_client)
       [("set_font_bold", JDict [("node_id", JNull); ("bold", JBool true)]);
        ("set_font_size", JDict [("node_id", JNull); ("size", JInt 14)])]).
Proof.
  apply (font_transport_failures_report_success local_client
           [("bold", JBool true); ("size", JInt 14)] bridge_down []).
  - reflexivity.
  - repeat constructor; exists "Connection refused"; reflexivity.
Defined.

(** C10. When the arguments hold no node identifier, every request the
    composite tool issues has params with exactly two keys: node_id, set
    to null, and the single attribute. *)
Theorem font_subcalls_carry_null_node_id freeplane (m : py_dict) bridge log :
  Py.dict_contains "node_id" m = false ->
  exists issued,
    snd (call_tool freeplane "set_font_formatting" (JDict m) bridge log)
    = (log ++ issued)%list
    /\ length issued = length (font_subcalls m)
    /\ Forall
         (fun request =>
            exists key command value,
              In (key, command) font_attributes
              /\ Py.dict_get key m = Some value
              /\ request
                 = POST (base_url freeplane ++ "/execute")
                     (JDict [("command", JStr command);
                             ("params",
                              JDict [("node_id", JNull); (key, value)])])
                     (timeout freeplane))
         issued.
Proof.
  intros Hnode. apply dict_contains_false in Hnode.
  exists (map (subcall_request freeplane) (font_subcalls m)).
  split; [apply font_call_log |]. split; [apply length_map |].
  apply Forall_map.
  eapply Forall_impl; [| apply font_subcalls_shape].
  intros [command params] (key & value & Hin & Hget & Hparams).
  simpl in Hin, Hparams. subst params.
  exists key, command, value. repeat split; auto.
  unfold node_id_of. rewrite Hnode. reflexivity.
Qed.

Lemma font_subcalls_carry_null_node_id_witness :
  exists issued,
    snd (call_tool local_client "set_font_formatting"
           (JDict [("italic", JBool true); ("size", JInt 12)]) bridge_ok [])
    = ([] ++ issued)%list
    /\ length issued = 2
    /\ Forall
         (fun request =>
            exists key command value,
              In (key, command) font_attributes
              /\ Py.dict_get key [("italic", JBool true); ("size", JInt 12)]
                 = Some value
              /\ request
                 = POST "http://localhost:8765/execute"
                     (JDict [("command", JStr command);
                             ("params",
                              JDict [("node_id", JNull); (key, value)])])
                     10)
         issued.
Proof.
  apply (font_subcalls_carry_null_node_id local_client
           [("italic", JBool true); ("size", JInt 12)] bridge_ok []).
  reflexivity.
Defined.

(** ** Catalog and mapping *)

Lemma font_call_not_unknown freeplane arguments bridge log log' :
  call_tool freeplane "set_font_formatting" arguments bridge log
  <> (Returns [text_block (unknown_tool "set_font_formatting")], log').
Proof.
  unfold call_tool, try_except, call_tool_body.
  change ("set_font_formatting" =? "check_connection") with false.
  change ("set_font_formatting" =? "set_font_formatting") with true.
  cbv iota. unfold bind.
  destruct (font_step freeplane arguments "bold" _ _ bridge log)
    as [[r1 | e1] l1]; [| destruct e1; discriminate].
  destruct (font_step freeplane arguments "italic" _ r1 bridge l1)
    as [[r2 | e2] l2]; [| destruct e2; discriminate].
  destruct (font_step freeplane arguments "size" _ r2 bridge l2)
    as [[r3 | e3] l3]; [| destruct e3; discriminate].
  unfold lift.
  destruct (all_success r3) as [success | e]; [| destruct e]; discriminate.
Qed.

Lemma resolved_call_not_unknown tool_name :
  resolves tool_name ->
  forall freeplane arguments bridge log,
    call_tool freeplane tool_name arguments bridge log
    <> (Returns [text_block (unknown_tool tool_name)], log).
Proof.
  intros [-> | [-> | (command & Hmap & _)]] freeplane arguments bridge log.
  - unfold call_tool, try_except, call_tool_body.
    change ("check_connection" =? "check_connection") with true. cbv iota.
    destruct (check_connection_returns freeplane bridge log) as [result H].
    unfold bind. rewrite H. unfold ret.
    intros Heq. inversion Heq as [[Hdoc Hlog]].
    exact (log_grows _ _ Hlog).
  - apply font_call_not_unknown.
  - rewrite (mapped_tool_run freeplane tool_name command arguments bridge log Hmap).
    cbv zeta. intros Heq. inversion Heq as [[Hdoc Hlog]].
    exact (log_grows _ _ Hlog).
Qed.

(** C2. Every name of the catalog is check_connection, set_font_formatting
    or a key of [command_map] bound to a non-empty command; hence a call
    with a catalog name never ends as the unknown-tool branch does (the
    "Unknown tool" object, no request to the bridge). *)
Theorem catalog_names_resolve :
  Forall (fun tool => resolves (name tool)) list_tools
  /\ (forall tool,
         In tool list_tools ->
         forall freeplane arguments bridge log,
           call_tool freeplane (name tool) arguments bridge log
           <> (Returns [text_block (unknown_tool (name tool))], log)).
Proof.
  assert (Hall : Forall (fun tool => resolves (name tool)) list_tools).
  { unfold list_tools.
    repeat (apply Forall_cons;
            [ unfold resolves; simpl name;
              first [ left; reflexivity
                    | right; left; reflexivity
                    | right; right; eexists; split;
                      [reflexivity | discriminate] ]
            | ]).
    apply Forall_nil. }
  split; [exact Hall |].
  intros tool Hin. apply resolved_call_not_unknown.
  rewrite Forall_forall in Hall. auto.
Qed.

(** * Further properties of the dispatch layer *)

(** ** The connection check *)

Lemma check_connection_run self bridge log :
  FreeplaneClient.check_connection self bridge log
  = (Returns (status_result (bridge log (status_request self))),
     (log ++ [status_request self])%list).
Proof.
  unfold FreeplaneClient.check_connection, try_except, bind, requests.get,
    requests.send, lift.
  fold (status_request self).
  destruct (bridge log _) as [[value | description] | kind description];
    reflexivity.
Qed.

(** X1. The connection-check tool ignores its arguments and sends exactly
    one request, the GET of /status: it never goes through the /execute
    path.  The answer is the bridge's status body as it came, or the
    three-field error object when the transport fails. *)
Theorem check_connection_tool_reads_status freeplane arguments bridge log :
  call_tool freeplane "check_connection" arguments bridge log
  = (Returns
       [text_block
          (status_result
             (bridge log (GET (base_url freeplane ++ "/status") (timeout freeplane))))],
     (log ++ [GET (base_url freeplane ++ "/status") (timeout freeplane)])%list).
Proof.
  unfold call_tool, try_except, call_tool_body.
  change ("check_connection" =? "check_connection") with true. cbv iota.
  unfold bind. rewrite check_connection_run. reflexivity.
Qed.

(** ** Ordinary tools *)

(** X2. For a tool of [command_map], a bridge answer that parses as JSON
    is handed back as it is, whatever its shape: no wrapping, no added
    key; exactly one request is sent. *)
Theorem ordinary_tool_returns_bridge_body freeplane name command arguments
    bridge log value :
  Py.dict_get name command_map = Some command ->
  bridge log (execute_request freeplane command (Py.or arguments (JDict [])))
  = Responds (Body value) ->
  call_tool freeplane name arguments bridge log
  = (Returns [text_block value],
     (log ++ [execute_request freeplane command (Py.or arguments (JDict []))])%list).
Proof.
  intros Hmap Hanswer.
  rewrite (mapped_tool_run freeplane name command arguments bridge log Hmap).
  cbv zeta. rewrite Hanswer. reflexivity.
Qed.

Lemma ordinary_tool_returns_bridge_body_witness :
  call_tool local_client "list_icons" (JDict []) bridge_null []
  = (Returns [text_block JNull],
     [execute_request local_client "list_icons" (JDict [])]).
Proof.
  apply (ordinary_tool_returns_bridge_body local_client "list_icons"
           "list_icons" (JDict []) bridge_null [] JNull); reflexivity.
Defined.

(** X3. For a tool of [command_map], a transport failure (the request
    fails, or the body is not JSON) is answered with the object
    [{"error": description}]: one request was attempted and nothing is
    raised. *)
Theorem ordinary_tool_transport_failure freeplane name command arguments
    bridge log description :
  Py.dict_get name command_map = Some command ->
  transport_failure
    (bridge log (execute_request freeplane command (Py.or arguments (JDict []))))
  = Some description ->
  call_tool freeplane name arguments bridge log
  = (Returns [text_block (JDict [("error", JStr description)])],
     (log ++ [execute_request freeplane command (Py.or arguments (JDict []))])%list).
Proof.
  intros Hmap Hfailure.
  rewrite (mapped_tool_run freeplane name command arguments bridge log Hmap).
  cbv zeta.
  destruct (bridge log _) as [[value | d] | kind d]; simpl in Hfailure;
    inversion Hfailure; subst; reflexivity.
Qed.

Lemma ordinary_tool_transport_failure_witness :
  call_tool local_client "get_node_note" (JDict [("node_id", JStr "ID_1")])
    bridge_garbled []
  = (Returns
       [text_block
          (JDict [("error", JStr "Expecting value: line 1 column 1 (char 0)")])],
     [execute_request local_client "get_note" (JDict [("node_id", JStr "ID_1")])]).
Proof.
  apply (ordinary_tool_transport_failure local_client "get_node_note" "get_note"
           (JDict [("node_id", JStr "ID_1")]) bridge_garbled []
           "Expecting value: line 1 column 1 (char 0)"); reflexivity.
Defined.

(** X4. For a tool of [command_map], arguments that Python counts as
    false ([None], an empty mapping, an empty list or string, zero,
    [False]) are sent to the bridge as the empty object. *)
Theorem ordinary_tool_falsy_arguments_sent_empty freeplane name command
    arguments bridge log :
  Py.dict_get name command_map = Some command ->
  Py.truthy arguments = false ->
  snd (call_tool freeplane name arguments bridge log)
  = (log ++ [POST (base_url freeplane ++ "/execute")
               (JDict [("command", JStr command); ("params", JDict [])])
               (timeout freeplane)])%list.
Proof.
  intros Hmap Hfalsy.
  rewrite (mapped_tool_run freeplane name command arguments bridge log Hmap).
  cbv zeta. unfold Py.or. rewrite Hfalsy. reflexivity.
Qed.

Lemma ordinary_tool_falsy_arguments_sent_empty_witness :
  snd (call_tool local_client "get_selected_node" JNull bridge_ok [])
  = [POST "http://localhost:8765/execute"
       (JDict [("command", JStr "get_selected_node"); ("params", JDict [])])
       10].
Proof.
  apply (ordinary_tool_falsy_arguments_sent_empty local_client
           "get_selected_node" "get_selected_node" JNull bridge_ok []);
    reflexivity.
Defined.

(** ** What a call can send *)

Lemma font_step_log freeplane arguments key command results bridge log :
  exists o issued,
    font_step freeplane arguments key command results bridge log
    = (o, (log ++ issued)%list)
    /\ length issued <= 1
    /\ Forall (bridge_request freeplane) issued
    /\ (is_object arguments = false -> issued = []).
Proof.
  assert (Hnone : forall o : outcome (list json),
             exists o' issued,
               (o, log) = (o', (log ++ issued)%list)
               /\ length issued <= 1
               /\ Forall (bridge_request freeplane) issued
               /\ (is_object arguments = false -> issued = [])).
  { intros o. exists o, []. rewrite app_nil_r. simpl. auto. }
  unfold font_step, bind, lift.
  destruct arguments as [| b | z | f | s | l | d]; simpl; try apply Hnone.
  - destruct (Py.str_contains key s); apply Hnone.
  - destruct (existsb (Py.str_eq key) l); apply Hnone.
  - unfold Py.dict_contains.
    destruct (Py.dict_get key d) as [value |]; [| apply Hnone].
    rewrite execute_run. cbv zeta.
    eexists. eexists. split; [reflexivity |]. simpl.
    split; [lia |]. split; [| discriminate].
    constructor; [| constructor]. right. eauto.
Qed.

Lemma font_body_log freeplane arguments bridge log :
  exists o issued,
    call_tool_body freeplane "set_font_formatting" arguments bridge log
    = (o, (log ++ issued)%list)
    /\ length issued <= 3
    /\ Forall (bridge_request freeplane) issued
    /\ (is_object arguments = false -> issued = []).
Proof.
  unfold call_tool_body.
  change ("set_font_formatting" =? "check_connection") with false.
  change ("set_font_formatting" =? "set_font_formatting") with true.
  cbv iota. unfold bind.
  destruct (font_step_log freeplane arguments "bold" "set_font_bold" [] bridge log)
    as (o1 & i1 & H1 & Hlen1 & Hall1 & Hnone1).
  rewrite H1. destruct o1 as [r1 | e1].
  2:{ exists (Raises e1), i1. repeat split; auto; lia. }
  destruct (font_step_log freeplane arguments "italic" "set_font_italic" r1
              bridge (log ++ i1)%list)
    as (o2 & i2 & H2 & Hlen2 & Hall2 & Hnone2).
  rewrite H2. rewrite <- app_assoc. destruct o2 as [r2 | e2].
  2:{ exists (Raises e2), (i1 ++ i2)%list. repeat split.
      - rewrite length_app. lia.
      - apply Forall_app. split; assumption.
      - intros H. rewrite (Hnone1 H), (Hnone2 H). reflexivity. }
  destruct (font_step_log freeplane arguments "size" "set_font_size" r2
              bridge (log ++ i1 ++ i2)%list)
    as (o3 & i3 & H3 & Hlen3 & Hall3 & Hnone3).
  rewrite H3. rewrite <- !app_assoc.
  assert (Hsum : length (i1 ++ i2 ++ i3) <= 3)
    by (rewrite !length_app; lia).
  assert (Hall : Forall (bridge_request freeplane) (i1 ++ i2 ++ i3))
    by (apply Forall_app; split; [| apply Forall_app; split]; assumption).
  assert (Hnone : is_object arguments = false -> (i1 ++ i2 ++ i3)%list = [])
    by (intros H; rewrite (Hnone1 H), (Hnone2 H), (Hnone3 H); reflexivity).
  destruct o3 as [r3 | e3].
  2:{ exists (Raises e3), (i1 ++ i2 ++ i3)%list. auto. }
  unfold lift. destruct (all_success r3) as [success | e]; unfold ret;
    eexists; exists (i1 ++ i2 ++ i3)%list; auto.
Qed.

(** The outermost handler sends nothing. *)
Lemma call_tool_log freeplane name arguments bridge log :
  snd (call_tool freeplane name arguments bridge log)
  = snd (call_tool_body freeplane name arguments bridge log).
Proof.
  unfold call_tool, try_except.
  destruct (call_tool_body freeplane name arguments bridge log) as [[r | e] l];
    [| destruct e]; reflexivity.
Qed.

Lemma unknown_tool_log freeplane name arguments bridge log :
  String.eqb name "check_connection" = false ->
  String.eqb name "set_font_formatting" = false ->
  Py.dict_get name command_map = None ->
  snd (call_tool freeplane name arguments bridge log) = log.
Proof.
  intros Hcheck Hfont Hmap. rewrite call_tool_log. unfold call_tool_body.
  rewrite Hcheck, Hfont, Hmap. reflexivity.
Qed.

(** X5. Whatever the tool name and the arguments, a call keeps the
    requests already logged and adds at most three; each added request
    is the GET of /status or a POST to /execute on this client's base
    URL, with this client's timeout. *)
Theorem call_tool_request_budget freeplane name arguments bridge log :
  exists issued,
    snd (call_tool freeplane name arguments bridge log) = (log ++ issued)%list
    /\ length issued <= 3
    /\ Forall
         (fun request =>
            request = GET (base_url freeplane ++ "/status") (timeout freeplane)
            \/ exists command params,
                 request
                 = POST (base_url freeplane ++ "/execute")
                     (JDict [("command", JStr command); ("params", params)])
                     (timeout freeplane))
         issued.
Proof.
  change (exists issued,
             snd (call_tool freeplane name arguments bridge log)
             = (log ++ issued)%list
             /\ length issued <= 3
             /\ Forall (bridge_request freeplane) issued).
  destruct (String.eqb name "check_connection") eqn:Hcheck.
  - apply String.eqb_eq in Hcheck. subst name.
    rewrite call_tool_log. unfold call_tool_body.
    change ("check_connection" =? "check_connection") with true. cbv iota.
    unfold bind. rewrite check_connection_run.
    exists [status_request freeplane]. simpl. repeat split; [lia |].
    constructor; [left; reflexivity | constructor].
  - destruct (String.eqb name "set_font_formatting") eqn:Hfont.
    + apply String.eqb_eq in Hfont. subst name.
      destruct (font_body_log freeplane arguments bridge log)
        as (o & issued & H & Hlen & Hall & _).
      exists issued. rewrite call_tool_log, H. auto.
    + destruct (Py.dict_get name command_map) as [command |] eqn:Hmap.
      * rewrite (mapped_tool_run freeplane name command arguments bridge log Hmap).
        cbv zeta. eexists. split; [reflexivity |]. simpl. split; [lia |].
        constructor; [right; eauto | constructor].
      * exists []. rewrite app_nil_r.
        rewrite (unknown_tool_log freeplane name arguments bridge log Hcheck Hfont Hmap).
        simpl. repeat split; [lia | constructor].
Qed.

(** X6. Called with arguments that are not a mapping ([None], a number,
    a string, a list), the composite font tool sends nothing to the
    bridge: either [in] raises, or [.get] does before any sub-call, or no
    key is found. *)
Theorem font_non_mapping_sends_nothing freeplane arguments bridge log :
  is_object arguments = false ->
  snd (call_tool freeplane "set_font_formatting" arguments bridge log) = log.
Proof.
  intros Hnot.
  destruct (font_body_log freeplane arguments bridge log)
    as (o & issued & H & _ & _ & Hnone).
  rewrite call_tool_log, H, (Hnone Hnot). simpl. apply app_nil_r.
Qed.

Lemma font_non_mapping_sends_nothing_witness :
  snd (call_tool local_client "set_font_formatting"
         (JList [JStr "bold"; JStr "size"]) bridge_ok [])
  = [].
Proof.
  apply (font_non_mapping_sends_nothing local_client
           (JList [JStr "bold"; JStr "size"]) bridge_ok []).
  reflexivity.
Defined.

Lemma command_map_no_font_command name command :
  Py.dict_get name command_map = Some command ->
  existsb (fun entry => String.eqb command (snd entry)) font_attributes = false.
Proof.
  intros H. apply dict_get_In in H.
  unfold command_map in H. simpl in H.
  repeat (destruct H as [H | H]; [inversion H; subst; reflexivity |]).
  contradiction.
Qed.

(** X7. The three font commands are sent by the composite tool only: no
    request of a call under any other name carries set_font_bold,
    set_font_italic or set_font_size. *)
Theorem font_commands_only_from_composite freeplane name arguments bridge log :
  name <> "set_font_formatting" ->
  exists issued,
    snd (call_tool freeplane name arguments bridge log) = (log ++ issued)%list
    /\ Forall (fun request => is_font_request request = false) issued.
Proof.
  intros Hfont. apply String.eqb_neq in Hfont.
  destruct (String.eqb name "check_connection") eqn:Hcheck.
  - apply String.eqb_eq in Hcheck. subst name.
    rewrite call_tool_log. unfold call_tool_body.
    change ("check_connection" =? "check_connection") with true. cbv iota.
    unfold bind. rewrite check_connection_run.
    exists [status_request freeplane]. split; [reflexivity |].
    constructor; [reflexivity | constructor].
  - destruct (Py.dict_get name command_map) as [command |] eqn:Hmap.
    + rewrite (mapped_tool_run freeplane name command arguments bridge log Hmap).
      cbv zeta. eexists. split; [reflexivity |].
      constructor; [| constructor].
      unfold is_font_request, execute_request, execute_body, request_command.
      apply (command_map_no_font_command name command Hmap).
    + exists []. rewrite app_nil_r.
      rewrite (unknown_tool_log freeplane name arguments bridge log Hcheck Hfont Hmap).
      split; [reflexivity | constructor].
Qed.

Lemma font_commands_only_from_composite_witness :
  exists issued,
    snd (call_tool local_client "set_node_style"
           (JDict [("style", JStr "important"); ("bold", JBool true)])
           bridge_ok [])
    = ([] ++ issued)%list
    /\ Forall (fun request => is_font_request request = false) issued.
Proof.
  apply (font_commands_only_from_composite local_client "set_node_style"
           (JDict [("style", JStr "important"); ("bold", JBool true)])
           bridge_ok []).
  discriminate.
Defined.

(** ** More on the composite font tool *)

(** X8. A node identifier given by the caller is carried as it is by
    every sub-call of the composite tool, next to the single attribute. *)
Theorem font_subcalls_carry_given_node_id freeplane (m : py_dict) node_id
    bridge log :
  Py.dict_get "node_id" m = Some node_id ->
  exists issued,
    snd (call_tool freeplane "set_font_formatting" (JDict m) bridge log)
    = (log ++ issued)%list
    /\ length issued = length (font_subcalls m)
    /\ Forall
         (fun request =>
            exists key command value,
              In (key, command) font_attributes
              /\ Py.dict_get key m = Some value
              /\ request
                 = POST (base_url freeplane ++ "/execute")
                     (JDict [("command", JStr command);
                             ("params",
                              JDict [("node_id", node_id); (key, value)])])
                     (timeout freeplane))
         issued.
Proof.
  intros Hnode.
  exists (map (subcall_request freeplane) (font_subcalls m)).
  split; [apply font_call_log |]. split; [apply length_map |].
  apply Forall_map.
  eapply Forall_impl; [| apply font_subcalls_shape].
  intros [command params] (key & value & Hin & Hget & Hparams).
  simpl in Hin, Hparams. subst params.
  exists key, command, value. repeat split; auto.
  unfold node_id_of. rewrite Hnode. reflexivity.
Qed.

Lemma font_subcalls_carry_given_node_id_witness :
  exists issued,
    snd (call_tool local_client "set_font_formatting"
           (JDict [("node_id", JStr "ID_42"); ("bold", JBool false)])
           bridge_ok [])
    = ([] ++ issued)%list
    /\ length issued = 1
    /\ Forall
         (fun request =>
            exists key command value,
              In (key, command) font_attributes
              /\ Py.dict_get key [("node_id", JStr "ID_42"); ("bold", JBool false)]
                 = Some value
              /\ request
                 = POST "http://localhost:8765/execute"
                     (JDict [("command", JStr command);
                             ("params",
                              JDict [("node_id", JStr "ID_42"); (key, value)])])
                     10)
         issued.
Proof.
  apply (font_subcalls_carry_given_node_id local_client
           [("node_id", JStr "ID_42"); ("bold", JBool false)] (JStr "ID_42")
           bridge_ok []).
  reflexivity.
Defined.

Lemma font_subcalls_ext (m1 m2 : py_dict) :
  Py.dict_get "node_id" m1 = Py.dict_get "node_id" m2 ->
  Py.dict_get "bold" m1 = Py.dict_get "bold" m2 ->
  Py.dict_get "italic" m1 = Py.dict_get "italic" m2 ->
  Py.dict_get "size" m1 = Py.dict_get "size" m2 ->
  font_subcalls m1 = font_subcalls m2.
Proof.
  intros Hnode Hbold Hitalic Hsize.
  unfold font_subcalls, font_attributes, node_id_of. simpl flat_map.
  rewrite Hnode, Hbold, Hitalic, Hsize. reflexivity.
Qed.

(** X9. The composite tool looks at four keys only.  Two mappings that
    agree on node_id, bold, italic and size (whatever else they hold,
    in whatever order) get the same answer and cause the same requests,
    for every bridge. *)
Theorem font_ignores_other_keys freeplane (m1 m2 : py_dict) bridge log :
  Py.dict_get "node_id" m1 = Py.dict_get "node_id" m2 ->
  Py.dict_get "bold" m1 = Py.dict_get "bold" m2 ->
  Py.dict_get "italic" m1 = Py.dict_get "italic" m2 ->
  Py.dict_get "size" m1 = Py.dict_get "size" m2 ->
  call_tool freeplane "set_font_formatting" (JDict m1) bridge log
  = call_tool freeplane "set_font_formatting" (JDict m2) bridge log.
Proof.
  intros Hnode Hbold Hitalic Hsize.
  rewrite !font_call_run. cbv zeta.
  rewrite (font_subcalls_ext m1 m2 Hnode Hbold Hitalic Hsize). reflexivity.
Qed.

Lemma font_ignores_other_keys_witness :
  call_tool local_client "set_font_formatting"
    (JDict [("size", JInt 18); ("colour", JStr "red"); ("bold", JBool true)])
    bridge_mixed []
  = call_tool local_client "set_font_formatting"
      (JDict [("bold", JBool true); ("size", JInt 18)]) bridge_mixed [].
Proof.
  apply (font_ignores_other_keys local_client
           [("size", JInt 18); ("colour", JStr "red"); ("bold", JBool true)]
           [("bold", JBool true); ("size", JInt 18)] bridge_mixed []);
    reflexivity.
Defined.

Lemma and_of_success_false results :
  existsb reports_failure results = true -> and_of_success results = false.
Proof.
  unfold and_of_success, reports_failure.
  induction results as [| r rest IH]; simpl; [discriminate |].
  intros H. apply orb_true_iff in H.
  destruct (has_success r) eqn:Hflag; simpl in *.
  - destruct (success_flag r); simpl in *.
    + destruct H as [H | H]; [discriminate | auto].
    + reflexivity.
  - destruct H as [H | H]; [discriminate | auto].
Qed.

(** X10. Partial failure.  When the sub-results are JSON objects and one
    of them reports failure (a success key with a falsy value), the
    composite answer has success = false and still lists every
    sub-result, the successful ones included. *)
Theorem font_partial_failure_reported freeplane (m : py_dict) bridge log
    results log' :
  collect freeplane (font_subcalls m) bridge log = (Returns results, log') ->
  forallb is_object results = true ->
  existsb reports_failure results = true ->
  call_tool freeplane "set_font_formatting" (JDict m) bridge log
  = (Returns
       [text_block (JDict [("results", JList results); ("success", JBool false)])],
     log').
Proof.
  intros Hcollect Hobjects Hfailure.
  rewrite collect_run in Hcollect. inversion Hcollect; subst; clear Hcollect.
  rewrite font_call_run. cbv zeta.
  rewrite (all_success_objects _ Hobjects).
  rewrite (and_of_success_false _ Hfailure). reflexivity.
Qed.

Lemma font_partial_failure_reported_witness :
  call_tool local_client "set_font_formatting"
    (JDict [("bold", JBool true); ("italic", JBool true); ("size", JInt 900)])
    bridge_mixed []
  = (Returns
       [text_block
          (JDict
             [("results",
               JList [JDict [("success", JBool true)];
                      JDict [("note", JStr "ignored")];
                      JDict [("success", JBool false); ("error", JStr "bad size")]]);
              ("success", JBool false)])],
     map (subcall_request local_client)
       [("set_font_bold", JDict [("node_id", JNull); ("bold", JBool true)]);
        ("set_font_italic", JDict [("node_id", JNull); ("italic", JBool true)]);
        ("set_font_size", JDict [("node_id", JNull); ("size", JInt 900)])]).
Proof.
  apply (font_partial_failure_reported local_client
           [("bold", JBool true); ("italic", JBool true); ("size", JInt 900)]
           bridge_mixed []); reflexivity.
Defined.

Lemma all_success_stops objects r rest :
  forallb is_object objects = true ->
  and_of_success objects = true ->
  is_object r = true ->
  reports_failure r = true ->
  all_success (objects ++ r :: rest) = Returns false.
Proof.
  unfold and_of_success, reports_failure.
  induction objects as [| o others IH]; simpl.
  - intros _ _ Hobject Hfailure.
    destruct r; try discriminate. simpl in *.
    unfold Py.dict_contains in *.
    destruct (Py.dict_get "success" d) as [v |]; [| discriminate].
    simpl in Hfailure. destruct (Py.truthy v); [discriminate | reflexivity].
  - intros Hobjects Hand Hobject Hfailure.
    apply andb_true_iff in Hobjects. destruct Hobjects as [Ho Hothers].
    destruct o; try discriminate. simpl in *.
    unfold Py.dict_contains in *.
    destruct (Py.dict_get "success" d) as [v |] eqn:Hflag; simpl in *.
    + rewrite Hflag in Hand. apply andb_true_iff in Hand.
      destruct Hand as [Hv Hrest]. rewrite Hv. auto.
    + auto.
Qed.

(** X11. The aggregation stops at the first sub-result that reports
    failure: what comes after it is not inspected, so a later sub-result
    that is not an object ([null], say) does not turn the answer into an
    error; the answer is the composite object with success = false. *)
Theorem font_failure_hides_later_results freeplane (m : py_dict) bridge log
    objects r rest log' :
  collect freeplane (font_subcalls m) bridge log
  = (Returns (objects ++ r :: rest)%list, log') ->
  forallb is_object objects = true ->
  existsb reports_failure objects = false ->
  is_object r = true ->
  reports_failure r = true ->
  call_tool freeplane "set_font_formatting" (JDict m) bridge log
  = (Returns
       [text_block
          (JDict [("results", JList (objects ++ r :: rest));
                  ("success", JBool false)])],
     log').
Proof.
  intros Hcollect Hobjects Hgood Hobject Hfailure.
  rewrite collect_run in Hcollect. inversion Hcollect as [[Hresults Hlog]].
  rewrite font_call_run. cbv zeta. rewrite Hresults.
  rewrite all_success_stops; auto.
  clear - Hgood. unfold and_of_success, reports_failure in *.
  induction objects as [| o others IH]; simpl in *; [reflexivity |].
  apply orb_false_iff in Hgood. destruct Hgood as [Ho Hothers].
  destruct (has_success o); simpl in *; auto.
  apply negb_false_iff in Ho. rewrite Ho. auto.
Qed.

Lemma font_failure_hides_later_results_witness :
  call_tool local_client "set_font_formatting"
    (JDict [("bold", JBool true); ("italic", JBool true)])
    bridge_failure_then_null []
  = (Returns
       [text_block
          (JDict [("results", JList ([] ++ [JDict [("success", JBool false)]; JNull]));
                  ("success", JBool false)])],
     map (subcall_request local_client)
       [("set_font_bold", JDict [("node_id", JNull); ("bold", JBool true)]);
        ("set_font_italic", JDict [("node_id", JNull); ("italic", JBool true)])]).
Proof.
  apply (font_failure_hides_later_results local_client
           [("bold", JBool true); ("italic", JBool true)]
           bridge_failure_then_null [] [] (JDict [("success", JBool false)])
           [JNull]); reflexivity.
Defined.

(** ** The catalog as a table *)

Lemma distinct_NoDup names : distinct names = true -> NoDup names.
Proof.
  induction names as [| n rest IH]; simpl; [constructor |].
  intros H. apply andb_true_iff in H. destruct H as [Hfresh Hrest].
  constructor; [| auto].
  intros Hin. apply negb_true_iff in Hfresh.
  assert (Hfound : existsb (String.eqb n) rest = true)
    by (apply existsb_exists; exists n; split; [assumption | apply String.eqb_refl]).
  congruence.
Qed.

(** X12. No tool name occurs twice in the catalog, and no tool name
    occurs twice as a key of [command_map]: a name designates one tool
    and one command. *)
Theorem catalog_names_unique :
  NoDup (map name list_tools) /\ NoDup (map fst command_map).
Proof.
  split; apply distinct_NoDup; vm_compute; reflexivity.
Qed.

Lemma dict_get_key_In {V : Type} (key : string) (d : list (string * V)) (v : V) :
  Py.dict_get key d = Some v -> In key (map fst d).
Proof.
  intros H. apply dict_get_In in H.
  apply in_map_iff. exists (key, v). auto.
Qed.

Lemma dispatched_names_in_catalog n :
  In n ("check_connection" :: "set_font_formatting" :: map fst command_map) ->
  In n (map name list_tools).
Proof.
  assert (Hall : forallb
                   (fun k => existsb (String.eqb k) (map name list_tools))
                   ("check_connection" :: "set_font_formatting"
                    :: map fst command_map)
                 = true) by (vm_compute; reflexivity).
  intros Hin. rewrite forallb_forall in Hall.
  specialize (Hall n Hin). apply existsb_exists in Hall.
  destruct Hall as (k & Hk & Heq). apply String.eqb_eq in Heq. now subst.
Qed.

(** X13. The dispatcher accepts no name outside the catalog: a call
    under a name that [list_tools] does not list is answered with the
    unknown-tool object, and nothing is sent to the bridge. *)
Theorem unlisted_name_is_unknown freeplane tool_name arguments bridge log :
  ~ In tool_name (map name list_tools) ->
  call_tool freeplane tool_name arguments bridge log
  = (Returns
       [text_block (JDict [("error", JStr ("Unknown tool: " ++ tool_name))])],
     log).
Proof.
  intros Hout.
  assert (Hcheck : String.eqb tool_name "check_connection" = false).
  { apply String.eqb_neq. intros ->. apply Hout.
    apply dispatched_names_in_catalog. simpl. auto. }
  assert (Hfont : String.eqb tool_name "set_font_formatting" = false).
  { apply String.eqb_neq. intros ->. apply Hout.
    apply dispatched_names_in_catalog. simpl. auto. }
  assert (Hmap : Py.dict_get tool_name command_map = None).
  { destruct (Py.dict_get tool_name command_map) as [command |] eqn:H;
      [| reflexivity].
    exfalso. apply Hout. apply dispatched_names_in_catalog.
    right. right. exact (dict_get_key_In _ _ _ H). }
  unfold call_tool, try_except, call_tool_body.
  rewrite Hcheck, Hfont, Hmap. reflexivity.
Qed.

Lemma unlisted_name_is_unknown_witness :
  call_tool local_client "set_font_bold" (JDict [("bold", JBool true)])
    bridge_ok []
  = (Returns
       [text_block (JDict [("error", JStr "Unknown tool: set_font_bold")])],
     []).
Proof.
  apply (unlisted_name_is_unknown local_client "set_font_bold"
           (JDict [("bold", JBool true)]) bridge_ok []).
  intros Hin. simpl in Hin.
  repeat (destruct Hin as [Hin | Hin]; [discriminate |]).
  exact Hin.
Defined.

(** X14. Every input schema of the catalog is an object schema whose
    parameters each have a primitive type (string, integer, boolean) and
    a description, with no parameter declared twice, and every name
    listed as required is one of the declared parameters. *)
Theorem catalog_schemas_well_formed :
  Forall (fun tool => schema_well_formed (inputSchema tool) = true) list_tools.
Proof.
  apply Forall_forall. apply forallb_forall. vm_compute. reflexivity.
Qed.
